(** * API de Noticias de Prensa: the query engine of [API/main.py]

    A shallow embedding of the two request handlers of [API/main.py],
    [listar_noticias_con_filtros] (search with optional filters) and
    [obtener_noticia] (lookup by id), together with the sample store
    [DB_SIMULADA], and the properties of the specification that concern
    them.

    Python values are represented as follows.
    - [str] is a sequence of Unicode code points, each a [nat].
    - [Optional[T]] is [option T]; [None] is [None].
    - [datetime.date] and [datetime.datetime] are records of naturals,
      compared field by field from the year down, as CPython does.
    - a list of [Noticia] is a [seq Noticia]; a list comprehension with a
      condition is [filter].
    - [raise] is the [Raise] constructor of [result]. *)

Set Warnings "-notation-overridden,-redundant-canonical-projection".
Set Warnings "-deprecated".

From HB Require Import structures.
From mathcomp Require Import ssreflect ssrfun ssrbool eqtype ssrnat seq.
From Stdlib Require Import String Ascii.

Set Implicit Arguments.
Unset Strict Implicit.
Unset Printing Implicit Defensive.

(** ** Strings *)

Definition str := seq nat.

(** String literals of the source are UTF-8 text; [u] turns the bytes of a
    literal into the code points Python holds for it. *)

Fixpoint bytes_of (s : string) : seq nat :=
  if s is String a s' then nat_of_ascii a :: bytes_of s' else [::].

Fixpoint decode_utf8 (acc pending : nat) (bs : seq nat) : str :=
  if bs is b :: bs' then
    if pending is k.+1 then
      let acc' := acc * 64 + (b - 128) in
      if k is 0 then acc' :: decode_utf8 0 0 bs' else decode_utf8 acc' k bs'
    else if b < 128 then b :: decode_utf8 0 0 bs'
    else if b < 224 then decode_utf8 (b - 192) 1 bs'
    else if b < 240 then decode_utf8 (b - 224) 2 bs'
    else decode_utf8 (b - 240) 3 bs'
  else [::].

Definition u (s : string) : str := decode_utf8 0 0 (bytes_of s).

(** [bool(s)] for an [Optional[str]]: [None] and the empty string are
    false, every other string is true. *)
Definition truthy (o : option str) : bool :=
  if o is Some s then s != [::] else false.

(** [a in b] on strings: [a] occurs in [b] as a contiguous run. *)
Definition str_in (a b : str) : bool := infix a b.

(** [str.lower] on the Basic Latin and Latin-1 Supplement blocks: the
    capitals A-Z and the capitals U+00C0-U+00DE, the multiplication sign
    U+00D7 apart, move 32 places up; every other code point below U+0100 is
    its own lowercase.  All text of [DB_SIMULADA] lies in these two blocks.
    Code points from U+0100 on are outside the table and are left as they
    are; the general results below do not depend on the table, they take
    the case mapping as a variable. *)
Definition lower_cp (c : nat) : nat :=
  if (65 <= c <= 90) || (192 <= c <= 222) && (c != 215) then c + 32 else c.

Definition str_lower (s : str) : str := [seq lower_cp c | c <- s].

(** ** Dates *)

Record date := Date { year : nat; month : nat; day : nat }.

Record datetime := DateTime {
  dt_year : nat; dt_month : nat; dt_day : nat;
  dt_hour : nat; dt_minute : nat; dt_second : nat; dt_microsecond : nat }.

(** [datetime(y, m, d, H, M)]: seconds and microseconds default to 0. *)
Definition mk_datetime (y m d H M : nat) : datetime := DateTime y m d H M 0 0.

(** [dt.date()] *)
Definition date_of (dt : datetime) : date :=
  Date (dt_year dt) (dt_month dt) (dt_day dt).

(** [a <= b] on dates: comparison of (year, month, day). *)
Definition date_le (a b : date) : bool :=
  (year a < year b) ||
  (year a == year b) && ((month a < month b) ||
                         (month a == month b) && (day a <= day b)).

(** [a >= b] on dates. *)
Definition date_ge (a b : date) : bool := date_le b a.

(** ** The data model *)

(** [class Noticia(BaseModel)] of [main.py]. *)
Record Noticia := MkNoticia {
  id : str;
  fecha_publicacion : datetime;
  fuente : str;
  titulo : str;
  contenido : str;
  tema : option str }.

(** ** The sample store *)

Definition N001 : Noticia := Eval vm_compute in
  MkNoticia (u "N001") (mk_datetime 2025 10 25 10 30) (u "El Mercurio")
    (u "El avance de la IA revoluciona la industria local")
    (u "Expertos debaten sobre el impacto de la Inteligencia Artificial en el mercado laboral.")
    (Some (u "Tecnología")).

Definition N002 : Noticia := Eval vm_compute in
  MkNoticia (u "N002") (mk_datetime 2025 10 24 15 0) (u "La Nación")
    (u "Crisis climática: Sequía afecta a la agricultura del sur")
    (u "Los agricultores piden ayuda al gobierno tras meses sin lluvia.")
    (Some (u "Medio Ambiente")).

Definition N003 : Noticia := Eval vm_compute in
  MkNoticia (u "N003") (mk_datetime 2025 10 25 11 45) (u "El Mercurio")
    (u "Resultados electorales del fin de semana")
    (u "Análisis detallado de los votos en las principales regiones del país.")
    (Some (u "Política")).

Definition N004 : Noticia := Eval vm_compute in
  MkNoticia (u "N004") (mk_datetime 2025 10 20 8 0) (u "Diario Financiero")
    (u "Grandes inversiones en infraestructura tecnológica")
    (u "Se anuncia un nuevo centro de datos con tecnología de punta.")
    (Some (u "Tecnología")).

Definition DB_SIMULADA : seq Noticia := [:: N001; N002; N003; N004].

(** ** The handlers *)

Inductive exn := HTTPException (status_code : nat) (detail : str).

Inductive result (A : Type) := Return (a : A) | Raise (e : exn).
Arguments Return {A} a.
Arguments Raise {A} e.

Section Engine.

(** [lower] is [str.lower]; [db] is the module-level list the handlers read
    ([DB_SIMULADA] in [main.py]). *)
Variable lower : str -> str.
Variable db : seq Noticia.

(** [GET /api/v1/noticias] *)
Definition listar_noticias_con_filtros
    (q medio : option str) (fecha_inicio fecha_fin : option date)
    (tema_ : option str) : seq Noticia :=
  let resultados := db in
  let resultados :=
    if truthy q then
      if q is Some q0 then
        let q_lower := lower q0 in
        [seq n <- resultados |
          str_in q_lower (lower (titulo n)) ||
          str_in q_lower (lower (contenido n))]
      else resultados
    else resultados in
  let resultados :=
    if truthy medio then
      if medio is Some medio0 then
        let medio_lower := lower medio0 in
        [seq n <- resultados | lower (fuente n) == medio_lower]
      else resultados
    else resultados in
  let resultados :=
    if truthy tema_ then
      if tema_ is Some tema0 then
        let tema_lower := lower tema0 in
        [seq n <- resultados |
          truthy (tema n) && (omap lower (tema n) == Some tema_lower)]
      else resultados
    else resultados in
  let resultados :=
    if fecha_inicio is Some fecha_inicio0 then
      [seq n <- resultados |
        date_ge (date_of (fecha_publicacion n)) fecha_inicio0]
    else resultados in
  let resultados :=
    if fecha_fin is Some fecha_fin0 then
      [seq n <- resultados |
        date_le (date_of (fecha_publicacion n)) fecha_fin0]
    else resultados in
  resultados.

(** [GET /api/v1/noticias/{noticia_id}]; [next(gen, None)] is the first
    article the generator yields, or [None]. *)
Definition obtener_noticia (noticia_id : str) : result Noticia :=
  let noticia := ohead [seq n <- db | id n == noticia_id] in
  if noticia is Some n then Return n
  else Raise (HTTPException 404 (u "Noticia no encontrada")).

End Engine.

(** ** Definitions that follow the specification's words *)

(** [a] occurs in [b]: some text before, [a], some text after. *)
Definition substring (a b : str) : Prop := exists p s : str, b = p ++ a ++ s.

Section Criteria.

Variable lower : str -> str.

(** keyword: case-folded substring of the title or of the body. *)
Definition keyword_matches (k : str) (n : Noticia) : bool :=
  str_in (lower k) (lower (titulo n)) || str_in (lower k) (lower (contenido n)).

(** source: case-folded exact match. *)
Definition source_matches (s : str) (n : Noticia) : bool :=
  lower (fuente n) == lower s.

(** topic: case-folded exact match against a topic that is set. *)
Definition topic_matches (t : str) (n : Noticia) : bool :=
  if tema n is Some s then lower s == lower t else false.

(** The topic condition as the handler writes it:
    [n.tema and n.tema.lower() == tema_lower]. *)
Definition topic_cond (t : str) (n : Noticia) : bool :=
  truthy (tema n) && (omap lower (tema n) == Some (lower t)).

(** dateFrom and dateTo: inclusive bounds on the date of publication. *)
Definition from_matches (d : date) (n : Noticia) : bool :=
  date_le d (date_of (fecha_publicacion n)).

Definition to_matches (d : date) (n : Noticia) : bool :=
  date_le (date_of (fecha_publicacion n)) d.

(** A criterion is supplied when the request carries a value for it, the
    empty string included; a criterion that is not supplied holds of every
    article. *)
Definition supplied (A : Type) (o : option A) (p : A -> pred Noticia) :
    pred Noticia :=
  fun n => if o is Some v then p v n else true.

(** The conjunction of the predicates of the supplied criteria. *)
Definition meets (q medio : option str) (fecha_inicio fecha_fin : option date)
    (tema_ : option str) : pred Noticia :=
  fun n => [&& supplied q keyword_matches n,
               supplied medio source_matches n,
               supplied tema_ topic_matches n,
               supplied fecha_inicio from_matches n &
               supplied fecha_fin to_matches n].

End Criteria.

(** ** The guards of the handler *)

(** The guards [if q:], [if medio:] and [if tema:] of the handler let a
    string criterion act only when it is true in Python's sense; the guards
    [if fecha_inicio:] and [if fecha_fin:] let a date act whenever there is
    one, dates being always true. *)
Definition active_str (o : option str) (p : str -> pred Noticia) : pred Noticia :=
  fun n => if truthy o then (if o is Some s then p s n else true) else true.

Definition active_date (o : option date) (p : date -> pred Noticia) : pred Noticia :=
  fun n => if o is Some d then p d n else true.

(** ** Auxiliary definitions *)

(** What the results need of [str.lower]: only the empty string has the
    lowercase of the empty string.  Python's mapping sends every code point
    to at least one code point, so it has this property. *)
Definition keeps_nonempty (lower : str -> str) : Prop :=
  forall s : str, lower s = lower [::] -> s = [::].

(** The error of a failed lookup. *)
Definition not_found : exn := HTTPException 404 (u "Noticia no encontrada").

(** The articles of [l1] whose id is the id of an article of [l2]. *)
Definition inter_by_id (l1 l2 : seq Noticia) : seq Noticia :=
  [seq n <- l1 | id n \in [seq id m | m <- l2]].

(** A criterion given as the empty string, read as a criterion not given. *)
Definition drop_empty (o : option str) : option str :=
  if truthy o then o else None.

(** An article whose topic is set to the empty string. *)
Definition sin_tema : Noticia :=
  MkNoticia (u "N005") (mk_datetime 2025 10 26 9 0) (u "La Tercera")
    (u "Titular") (u "Cuerpo") (Some [::]).

(** The conjunction of the active conditions of a request, each as the
    handler writes it. *)
Definition selects (lower : str -> str) (q medio : option str)
    (fecha_inicio fecha_fin : option date) (tema_ : option str) : pred Noticia :=
  fun n => [&& active_str q (keyword_matches lower) n,
               active_str medio (source_matches lower) n,
               active_str tema_ (topic_cond lower) n,
               active_date fecha_inicio from_matches n &
               active_date fecha_fin to_matches n].

(** A criterion kept ([true]) or left out of the request ([false]). *)
Definition relax (A : Type) (keep : bool) (o : option A) : option A :=
  if keep then o else None.

(** Case mappings that leave lowercase text as it is. *)
Definition settled (lower : str -> str) : Prop :=
  forall s : str, lower (lower s) = lower s.

(** ** Equality tests on the records *)

Definition tuple_of_date (d : date) := (year d, month d, day d).
Definition date_of_tuple (t : nat * nat * nat) := Date t.1.1 t.1.2 t.2.
Definition tuple_of_dateK : cancel tuple_of_date date_of_tuple :=
  fun d => let: Date _ _ _ := d in erefl.
HB.instance Definition _ := Equality.copy date (can_type tuple_of_dateK).

Definition tuple_of_datetime (t : datetime) :=
  (dt_year t, dt_month t, dt_day t,
   (dt_hour t, dt_minute t, dt_second t, dt_microsecond t)).
Definition datetime_of_tuple (t : nat * nat * nat * (nat * nat * nat * nat)) :=
  DateTime t.1.1.1 t.1.1.2 t.1.2 t.2.1.1.1 t.2.1.1.2 t.2.1.2 t.2.2.
Definition tuple_of_datetimeK : cancel tuple_of_datetime datetime_of_tuple :=
  fun t => let: DateTime _ _ _ _ _ _ _ := t in erefl.
HB.instance Definition _ :=
  Equality.copy datetime (can_type tuple_of_datetimeK).

Definition tuple_of_noticia (n : Noticia) :=
  (id n, fecha_publicacion n, fuente n, (titulo n, contenido n, tema n)).
Definition noticia_of_tuple
    (t : str * datetime * str * (str * str * option str)) :=
  MkNoticia t.1.1.1 t.1.1.2 t.1.2 t.2.1.1 t.2.1.2 t.2.2.
Definition tuple_of_noticiaK : cancel tuple_of_noticia noticia_of_tuple :=
  fun n => let: MkNoticia _ _ _ _ _ _ := n in erefl.
HB.instance Definition _ :=
  Equality.copy Noticia (can_type tuple_of_noticiaK).

(** ** The order on dates *)

Lemma date_le_refl (a : date) : date_le a a.
Proof. by rewrite /date_le !eqxx leqnn !orbT. Qed.

Lemma date_le_total (a b : date) : date_le a b || date_le b a.
Proof.
rewrite /date_le [year b == _]eq_sym [month b == _]eq_sym.
case: (ltngtP (year a) (year b)) => //= _.
by case: (ltngtP (month a) (month b)) => //= _; exact: leq_total.
Qed.

Lemma date_le_anti (a b : date) : date_le a b -> date_le b a -> a = b.
Proof.
case: a b => [ya ma da] [yb mb db]; rewrite /date_le /= [yb == _]eq_sym [mb == _]eq_sym.
case: (ltngtP ya yb) => //= ->.
case: (ltngtP ma mb) => //= -> le1 le2.
by congr Date; apply/eqP; rewrite eqn_leq le1 le2.
Qed.

Lemma date_le_trans (b a c : date) : date_le a b -> date_le b c -> date_le a c.
Proof.
case: a b c => [ya ma da] [yb mb db] [yc mc dc]; rewrite /date_le /=.
case: (ltngtP ya yb) => //= [lt1 _|->].
  case: (ltngtP yb yc) => //= [lt2 _|<- _]; last by rewrite lt1.
  by rewrite (ltn_trans lt1 lt2).
case: (ltngtP yb yc) => //= _.
case: (ltngtP ma mb) => //= [lt1 _|->].
  case: (ltngtP mb mc) => //= [lt2 _|<- _]; last by rewrite lt1.
  by rewrite (ltn_trans lt1 lt2).
case: (ltngtP mb mc) => //= _.
exact: leq_trans.
Qed.

(** ** The case mapping of the sample data *)

Lemma str_lower_keeps_nonempty : keeps_nonempty str_lower.
Proof. by case. Qed.

(** ** Search as one pass *)

Section Theory.

Variable lower : str -> str.
Variable db : seq Noticia.

Notation listar := (listar_noticias_con_filtros lower db).

(** Each guarded step of the handler is a selection by the active
    predicate of its criterion. *)
Lemma step_q (q : option str) (rs : seq Noticia) :
  (if truthy q then
     if q is Some q0 then
       [seq n <- rs | str_in (lower q0) (lower (titulo n)) ||
                      str_in (lower q0) (lower (contenido n))]
     else rs
   else rs) = [seq n <- rs | active_str q (keyword_matches lower) n].
Proof. by case: q => [[|c k]|] /=; rewrite ?filter_predT. Qed.

Lemma step_medio (medio : option str) (rs : seq Noticia) :
  (if truthy medio then
     if medio is Some m0 then [seq n <- rs | lower (fuente n) == lower m0]
     else rs
   else rs) = [seq n <- rs | active_str medio (source_matches lower) n].
Proof. by case: medio => [[|c k]|] /=; rewrite ?filter_predT. Qed.

Lemma topic_test (t : str) (n : Noticia) :
  keeps_nonempty lower -> t != [::] ->
  topic_cond lower t n = topic_matches lower t n.
Proof.
move=> low tN; rewrite /topic_cond /topic_matches; case: (tema n) => [[|c s]|] //=.
by apply/esym/negbTE/eqP => /esym /low tE; rewrite tE in tN.
Qed.

Lemma step_tema (t : option str) (rs : seq Noticia) :
  (if truthy t then
     if t is Some t0 then
       [seq n <- rs | truthy (tema n) && (omap lower (tema n) == Some (lower t0))]
     else rs
   else rs) = [seq n <- rs | active_str t (topic_cond lower) n].
Proof. by case: t => [[|c k]|] /=; rewrite ?filter_predT. Qed.

Lemma step_desde (fi : option date) (rs : seq Noticia) :
  (if fi is Some d then [seq n <- rs | date_ge (date_of (fecha_publicacion n)) d]
   else rs) = [seq n <- rs | active_date fi from_matches n].
Proof. by case: fi => [d|] /=; rewrite ?filter_predT. Qed.

Lemma step_hasta (ff : option date) (rs : seq Noticia) :
  (if ff is Some d then [seq n <- rs | date_le (date_of (fecha_publicacion n)) d]
   else rs) = [seq n <- rs | active_date ff to_matches n].
Proof. by case: ff => [d|] /=; rewrite ?filter_predT. Qed.

(** The handler is a chain of five selections. *)
Lemma listar_chain q medio fi ff t :
  listar q medio fi ff t =
  [seq n <- [seq n <- [seq n <- [seq n <- [seq n <- db
     | active_str q (keyword_matches lower) n]
     | active_str medio (source_matches lower) n]
     | active_str t (topic_cond lower) n]
     | active_date fi from_matches n]
     | active_date ff to_matches n].
Proof.
rewrite /listar_noticias_con_filtros /=.
by rewrite step_q step_medio step_tema step_desde step_hasta.
Qed.

Lemma active_topic (t : option str) (n : Noticia) :
  keeps_nonempty lower ->
  active_str t (topic_cond lower) n = active_str t (topic_matches lower) n.
Proof.
by move=> low; case: t => [[|c t]|] //; rewrite /active_str /= topic_test.
Qed.

Lemma active_supplied (o : option str) p (n : Noticia) :
  active_str o p n = supplied (drop_empty o) p n.
Proof. by case: o => [[|c s]|]. Qed.

(** The handler selects by the predicates of the supplied criteria, the
    empty strings among them left out. *)
Lemma listar_meets q medio fi ff t :
  keeps_nonempty lower ->
  listar q medio fi ff t =
  [seq n <- db |
    meets lower (drop_empty q) (drop_empty medio) fi ff (drop_empty t) n].
Proof.
move=> low; rewrite listar_chain -!filter_predI.
apply: eq_filter => n /=; rewrite /meets -!active_supplied active_topic //.
rewrite -[supplied fi _ n]/(active_date fi from_matches n).
rewrite -[supplied ff _ n]/(active_date ff to_matches n).
move: (active_str q _ n) (active_str medio _ n) (active_str t _ n).
move: (active_date fi _ n) (active_date ff _ n).
by do 5!case.
Qed.

(** Only a source or a topic given as the empty string makes a difference
    between the supplied criteria and those the guards let act. *)
Lemma meets_drop_empty q medio fi ff t (n : Noticia) :
  lower [::] = [::] -> medio <> Some [::] -> t <> Some [::] ->
  meets lower (drop_empty q) (drop_empty medio) fi ff (drop_empty t) n =
  meets lower q medio fi ff t n.
Proof.
move=> low0 medioN tN; rewrite /meets.
have ->: drop_empty medio = medio by case: medio medioN => [[|c s]|].
have ->: drop_empty t = t by case: t tN => [[|c s]|].
case: q => [[|c k]|] //=.
by rewrite /keyword_matches /str_in low0 infix0s.
Qed.

Lemma listar_subseq q medio fi ff t : subseq (listar q medio fi ff t) db.
Proof.
by rewrite listar_chain; do 4![apply: subseq_trans (filter_subseq _ _) _];
   exact: filter_subseq.
Qed.

(** Two selections of a store with unique ids meet, by id, in the
    selection by both. *)
Lemma inter_by_id_filter (a b : pred Noticia) :
  uniq [seq id n | n <- db] ->
  inter_by_id [seq n <- db | a n] [seq n <- db | b n] =
  [seq n <- [seq n <- db | a n] | b n].
Proof.
move=> uniq_id; apply: eq_in_filter => n; rewrite mem_filter => /andP[_ n_db].
apply/mapP/idP => [[m]|b_n]; last by exists n; rewrite // mem_filter b_n.
rewrite mem_filter => /andP[b_m m_db] id_nm.
by rewrite (uniq_map_inj_in uniq_id n_db m_db id_nm).
Qed.

End Theory.

(** ** The properties of the specification *)

Section Claims.

Variable lower : str -> str.
Variable db : seq Noticia.

Notation listar := (listar_noticias_con_filtros lower db).

(** C1, amended.  For every combination of supplied criteria in which
    neither the source nor the topic is the empty string, the search
    returns the store's sequence restricted to exactly the articles that
    satisfy the conjunction of the predicates of all supplied criteria.  A
    criterion supplied as the empty string is left out: for every
    combination the result is the restriction by the remaining supplied
    criteria.  For every combination the result is a subsequence of the
    store (a subset of it in its original relative order), and with no
    criterion the store is returned unchanged. *)
Theorem search_restricts_store q medio fi ff t :
  [/\ keeps_nonempty lower -> lower [::] = [::] ->
      medio <> Some [::] -> t <> Some [::] ->
        listar q medio fi ff t = [seq n <- db | meets lower q medio fi ff t n],
      keeps_nonempty lower ->
        listar q medio fi ff t =
        [seq n <- db |
          meets lower (drop_empty q) (drop_empty medio) fi ff (drop_empty t) n],
      subseq (listar q medio fi ff t) db,
      {subset listar q medio fi ff t <= db} &
      listar None None None None None = db].
Proof.
split; [| exact: listar_meets | exact: listar_subseq | | by []].
- move=> low low0 medioN tN; rewrite listar_meets //.
  by apply: eq_filter => n; exact: meets_drop_empty.
- exact/mem_subseq/listar_subseq.
Qed.

End Claims.

(** C1, as the specification states it, does not hold: with the empty
    string supplied as source, or as topic, the search returns the whole
    sample store, whereas no article of it satisfies the predicate of that
    criterion. *)
Lemma search_not_restricted_by_empty_string :
  [/\ listar_noticias_con_filtros str_lower DB_SIMULADA
        None (Some [::]) None None None = [:: N001; N002; N003; N004],
      [seq n <- DB_SIMULADA | meets str_lower None (Some [::]) None None None n]
        = [::],
      listar_noticias_con_filtros str_lower DB_SIMULADA
        None None None None (Some [::]) = [:: N001; N002; N003; N004],
      [seq n <- DB_SIMULADA | meets str_lower None None None None (Some [::]) n]
        = [::] &
      listar_noticias_con_filtros str_lower DB_SIMULADA
        None (Some [::]) None None None <>
      [seq n <- DB_SIMULADA | meets str_lower None (Some [::]) None None None n]].
Proof. by split; vm_compute. Qed.

(** C1 at the sample store: keyword "ia", source "EL MERCURIO", from
    21 October 2025 on, topic "TECNOLOGÍA"; the result is N001 alone. *)
Lemma search_restricts_store_witness :
  [/\ keeps_nonempty str_lower, str_lower [::] = [::],
      Some (u "EL MERCURIO") <> Some [::], Some (u "TECNOLOGÍA") <> Some [::] &
      listar_noticias_con_filtros str_lower DB_SIMULADA
        (Some (u "ia")) (Some (u "EL MERCURIO")) (Some (Date 2025 10 21)) None
        (Some (u "TECNOLOGÍA")) =
      [seq n <- DB_SIMULADA |
        meets str_lower (Some (u "ia")) (Some (u "EL MERCURIO"))
          (Some (Date 2025 10 21)) None (Some (u "TECNOLOGÍA")) n] /\
      [seq n <- DB_SIMULADA |
        meets str_lower (Some (u "ia")) (Some (u "EL MERCURIO"))
          (Some (Date 2025 10 21)) None (Some (u "TECNOLOGÍA")) n] = [:: N001]].
Proof.
have low0 : str_lower [::] = [::] by [].
have medioN : Some (u "EL MERCURIO") <> Some [::] by [].
have tN : Some (u "TECNOLOGÍA") <> Some [::] by [].
split; [exact: str_lower_keeps_nonempty | exact: low0 | exact: medioN
       | exact: tN |].
split; last by vm_compute.
case: (search_restricts_store str_lower DB_SIMULADA
         (Some (u "ia")) (Some (u "EL MERCURIO")) (Some (Date 2025 10 21)) None
         (Some (u "TECNOLOGÍA"))) => restricts _ _ _ _.
exact: restricts str_lower_keeps_nonempty low0 medioN tN.
Defined.

(** C2, as the specification states it, does not hold: the keyword "IA"
    selects more than N001 from the sample store. *)
Lemma keyword_IA_not_only_N001 :
  listar_noticias_con_filtros str_lower DB_SIMULADA
    (Some (u "IA")) None None None None <> [:: N001].
Proof. by vm_compute. Qed.

(** C2, amended.  Over the sample store the keyword "IA" alone returns
    N001, N002 and N004, in that order: "ia" occurs in the title of N001,
    in "lluvia" in the body of N002 and in "anuncia" in the body of N004. *)
Theorem keyword_IA_sample :
  [/\ listar_noticias_con_filtros str_lower DB_SIMULADA
        (Some (u "IA")) None None None None = [:: N001; N002; N004],
      str_lower (u "IA") = u "ia",
      substring (u "ia") (str_lower (titulo N001)),
      substring (u "ia") (str_lower (contenido N002)) &
      substring (u "ia") (str_lower (contenido N004))].
Proof.
split; [by vm_compute | by vm_compute | | |]; apply/infixP; by vm_compute.
Qed.

Section FilterClaims.

Variable lower : str -> str.
Variable db : seq Noticia.

Notation listar := (listar_noticias_con_filtros lower db).

(** C3.  With only a non-empty keyword [k], an article of the store is in
    the result exactly when the lowercased [k] occurs in its lowercased
    title or in its lowercased body. *)
Theorem keyword_filter_iff (k : str) (n : Noticia) :
  k <> [::] ->
  n \in listar (Some k) None None None None <->
  n \in db /\ (substring (lower k) (lower (titulo n)) \/
               substring (lower k) (lower (contenido n))).
Proof.
case: k => [|c k] // _; rewrite /listar_noticias_con_filtros /= mem_filter.
split=> [/andP[/orP[] /infixP occ ->]|[-> [] /infixP occ]]; rewrite /str_in.
- by split=> //; left.
- by split=> //; right.
- by rewrite occ.
- by rewrite occ orbT.
Qed.

(** C5.  With only a non-empty topic [t], an article of the store is in
    the result exactly when its topic is set and its lowercase equals the
    lowercase of [t]; an article with no topic is never in the result. *)
Theorem topic_filter_iff (t : str) (n : Noticia) :
  keeps_nonempty lower -> t <> [::] ->
  (n \in listar None None None None (Some t) <->
   n \in db /\ exists2 s, tema n = Some s & lower s = lower t) /\
  (tema n = None -> n \notin listar None None None None (Some t)).
Proof.
move=> low /eqP tN.
have ->: listar None None None None (Some t) =
         [seq n <- db | topic_matches lower t n].
  rewrite /listar_noticias_con_filtros /= tN.
  by apply: eq_filter => m; rewrite -(topic_test _ low tN).
rewrite !mem_filter /topic_matches; split; last by move=> ->.
split=> [/andP[]|[-> [s -> ->]]]; last by rewrite eqxx.
by case: (tema n) => // s /eqP eq_low ->; split=> //; exists s.
Qed.

(** C6.  With only date bounds, an article of the store is in the result
    exactly when the date of its publication is not before [fecha_inicio],
    if given, and not after [fecha_fin], if given.  Both bounds include
    their end: an article published on the very day given as a bound,
    or as both, is in the result. *)
Theorem date_range_filter (fi ff : option date) (n : Noticia) :
  let d := date_of (fecha_publicacion n) in
  [/\ n \in listar None None fi ff None =
        [&& n \in db,
            (if fi is Some lo then date_le lo d else true) &
            (if ff is Some hi then date_le d hi else true)],
      n \in db -> n \in listar None None (Some d) None None,
      n \in db -> n \in listar None None None (Some d) None &
      n \in db -> n \in listar None None (Some d) (Some d) None].
Proof.
move=> d.
have mem : forall a b : option date, n \in listar None None a b None =
    [&& n \in db, (if a is Some lo then date_le lo d else true) &
                  (if b is Some hi then date_le d hi else true)].
  move=> a b; rewrite /listar_noticias_con_filtros /= step_desde step_hasta.
  by rewrite !mem_filter andbC -andbA andbCA; case: a; case: b.
by split; rewrite ?mem //= => ->; rewrite /= !date_le_refl.
Qed.

End FilterClaims.

(** C3 at the sample store: "REGIONES" occurs, lowercased, in the body of
    N003. *)
Lemma keyword_filter_iff_witness :
  u "REGIONES" <> [::] /\
  (N003 \in listar_noticias_con_filtros str_lower DB_SIMULADA
              (Some (u "REGIONES")) None None None None <->
   N003 \in DB_SIMULADA /\
   (substring (str_lower (u "REGIONES")) (str_lower (titulo N003)) \/
    substring (str_lower (u "REGIONES")) (str_lower (contenido N003)))).
Proof.
have nonempty : u "REGIONES" <> [::] by [].
split; first exact: nonempty.
exact: (@keyword_filter_iff str_lower DB_SIMULADA (u "REGIONES") N003 nonempty).
Defined.

(** C5 at the sample store: the topic "POLÍTICA" and N003. *)
Lemma topic_filter_iff_witness :
  [/\ keeps_nonempty str_lower, u "POLÍTICA" <> [::] &
      N003 \in listar_noticias_con_filtros str_lower DB_SIMULADA
                 None None None None (Some (u "POLÍTICA")) <->
      N003 \in DB_SIMULADA /\
      exists2 s, tema N003 = Some s & str_lower s = str_lower (u "POLÍTICA")].
Proof.
have nonempty : u "POLÍTICA" <> [::] by [].
split; [exact: str_lower_keeps_nonempty | exact: nonempty |].
exact: (proj1 (@topic_filter_iff str_lower DB_SIMULADA (u "POLÍTICA") N003
                 str_lower_keeps_nonempty nonempty)).
Defined.

(** C6 at the sample store: N002, published on 24 October 2025, answers a
    search from that day on. *)
Lemma date_range_filter_witness :
  N002 \in DB_SIMULADA /\
  N002 \in listar_noticias_con_filtros str_lower DB_SIMULADA
             None None (Some (Date 2025 10 24)) None None.
Proof.
have in_db : N002 \in DB_SIMULADA by [].
split; first exact: in_db.
case: (date_range_filter str_lower DB_SIMULADA None None N002) => _ lo_incl _ _.
exact: lo_incl in_db.
Defined.

(** C4.  With only a non-empty source [s], an article of the store is in
    the result exactly when its lowercased source equals the lowercased
    [s]; two sources with the same lowercase give the same result, so
    "EL MERCURIO" and "el mercurio" do, over any store.  The match is on
    the whole name: "Mercurio", a part of "El Mercurio", selects nothing
    from the sample store. *)
Theorem source_filter_exact :
  [/\ forall lower db (s : str) (n : Noticia), s <> [::] ->
        (n \in listar_noticias_con_filtros lower db None (Some s) None None None <->
         n \in db /\ lower (fuente n) = lower s),
      forall lower db (s s' : str), s <> [::] -> s' <> [::] ->
        lower s = lower s' ->
        listar_noticias_con_filtros lower db None (Some s) None None None =
        listar_noticias_con_filtros lower db None (Some s') None None None,
      forall db,
        listar_noticias_con_filtros str_lower db
          None (Some (u "EL MERCURIO")) None None None =
        listar_noticias_con_filtros str_lower db
          None (Some (u "el mercurio")) None None None,
      listar_noticias_con_filtros str_lower DB_SIMULADA
        None (Some (u "EL MERCURIO")) None None None = [:: N001; N003] &
      listar_noticias_con_filtros str_lower DB_SIMULADA
        None (Some (u "Mercurio")) None None None = [::]].
Proof.
split=> [lower db [|c s] n // _|lower db [|c s] [|c' s'] // _ _ eq_low|db||].
- rewrite /listar_noticias_con_filtros /= mem_filter.
  by split=> [/andP[/eqP]|[-> ->]] //; rewrite eqxx.
- by rewrite /listar_noticias_con_filtros /= eq_low.
- by [].
- by vm_compute.
- by vm_compute.
Qed.

(** C4 at the sample store: the source "EL MERCURIO" and N003. *)
Lemma source_filter_exact_witness :
  u "EL MERCURIO" <> [::] /\
  (N003 \in listar_noticias_con_filtros str_lower DB_SIMULADA
              None (Some (u "EL MERCURIO")) None None None <->
   N003 \in DB_SIMULADA /\
   str_lower (fuente N003) = str_lower (u "EL MERCURIO")).
Proof.
have nonempty : u "EL MERCURIO" <> [::] by [].
split; first exact: nonempty.
case: source_filter_exact => exact_match _ _ _ _.
exact: (exact_match str_lower DB_SIMULADA (u "EL MERCURIO") N003 nonempty).
Defined.

Section Lookup.

Variable db : seq Noticia.

Lemma obtener_noticiaE (i : str) :
  obtener_noticia db i =
  if [seq n <- db | id n == i] is n :: _ then Return n else Raise not_found.
Proof. by rewrite /obtener_noticia; case: [seq _ <- _ | _]. Qed.

(** C7.  Lookup by id returns an article of the store whose id is exactly
    the given string when there is one, the only such article when ids are
    unique, and raises the 404 error when there is none.  The answer
    depends on the id alone, so asking again gives the same answer.  The
    404 error is the only error the lookup raises; the search raises
    none, it returns a list for every request. *)
Theorem obtener_noticia_spec (i : str) :
  [/\ (exists2 n, n \in db & id n = i) ->
        exists n, [/\ obtener_noticia db i = Return n, n \in db & id n = i],
      uniq [seq id n | n <- db] ->
        forall n, n \in db -> id n = i -> obtener_noticia db i = Return n,
      (forall n, n \in db -> id n <> i) ->
        obtener_noticia db i = Raise not_found,
      forall e, obtener_noticia db i = Raise e ->
        e = not_found /\ (forall n, n \in db -> id n <> i) &
      forall j, j = i -> obtener_noticia db j = obtener_noticia db i].
Proof.
have hit n rest : [seq n <- db | id n == i] = n :: rest -> n \in db /\ id n = i.
  move=> eq_f; have: n \in [seq n <- db | id n == i] by rewrite eq_f mem_head.
  by rewrite mem_filter => /andP[/eqP].
have miss : [seq n <- db | id n == i] = [::] -> forall n, n \in db -> id n <> i.
  move=> eq_f n n_db /eqP id_n.
  have: n \in [seq n <- db | id n == i] by rewrite mem_filter id_n.
  by rewrite eq_f.
split; [| | | |by move=> j ->]; rewrite obtener_noticiaE.
- case=> n n_db id_n; case eq_f: [seq _ <- _ | _] => [|m rest].
    by case: (miss eq_f n n_db).
  by exists m; case: (hit _ _ eq_f).
- move=> uniq_id n n_db id_n; case eq_f: [seq _ <- _ | _] => [|m rest].
    by case: (miss eq_f n n_db).
  case: (hit _ _ eq_f) => m_db id_m; congr Return.
  by apply: (uniq_map_inj_in uniq_id) => //; rewrite id_m.
- move=> none; case eq_f: [seq _ <- _ | _] => [|m rest] //.
  by case: (hit _ _ eq_f) => m_db /none.
- by move=> e; case eq_f: [seq _ <- _ | _] => [|m rest] // [<-]; split=> //; exact: miss.
Qed.

End Lookup.

(** C7 at the sample store: "N003" is found, "N999" is not. *)
Lemma obtener_noticia_spec_witness :
  [/\ exists2 n, n \in DB_SIMULADA & id n = u "N003",
      exists n, [/\ obtener_noticia DB_SIMULADA (u "N003") = Return n,
                    n \in DB_SIMULADA & id n = u "N003"],
      forall n, n \in DB_SIMULADA -> id n <> u "N999" &
      obtener_noticia DB_SIMULADA (u "N999") = Raise not_found].
Proof.
have found : exists2 n, n \in DB_SIMULADA & id n = u "N003" by exists N003.
have absent : forall n, n \in DB_SIMULADA -> id n <> u "N999".
  by move=> n; rewrite !inE => /or4P[] /eqP ->.
split; [exact: found | | exact: absent |].
- by case: (obtener_noticia_spec DB_SIMULADA (u "N003")) => /(_ found).
- by case: (obtener_noticia_spec DB_SIMULADA (u "N999")) => _ _ /(_ absent).
Defined.

Section Combination.

Variable lower : str -> str.
Variable db : seq Noticia.

Notation listar := (listar_noticias_con_filtros lower db).

(** C8.  Over a store with unique ids, the search by keyword [k] and
    source [s] together returns the articles of the search by [k] alone
    whose id is the id of an article of the search by [s] alone. *)
Theorem conjunctive_law (k s : str) :
  uniq [seq id n | n <- db] ->
  listar (Some k) (Some s) None None None =
  inter_by_id (listar (Some k) None None None None)
              (listar None (Some s) None None None).
Proof.
move=> uniq_id; rewrite !listar_chain /= !filter_predT.
by rewrite inter_by_id_filter.
Qed.

(** C9, amended.  For each of keyword, source and topic, an empty string
    is read as the criterion not being given: the search returns what it
    returns with that criterion left out. *)
Theorem empty_string_is_no_criterion q medio fi ff t :
  [/\ listar q medio fi ff t =
      listar (drop_empty q) (drop_empty medio) fi ff (drop_empty t),
      listar (Some [::]) medio fi ff t = listar None medio fi ff t,
      listar q (Some [::]) fi ff t = listar q None fi ff t &
      listar q medio fi ff (Some [::]) = listar q medio fi ff None].
Proof.
split=> //.
by case: q => [[|c q]|]; case: medio => [[|c' m]|]; case: t => [[|c'' t]|].
Qed.

(** C10, amended.  When the topic criterion is a non-empty string, an
    article whose topic is the empty string is never in the result, no
    more than an article with no topic, whatever the other criteria.
    When the topic criterion is the empty string the topic is not looked
    at: with no other criterion every article of the store is returned. *)
Theorem empty_topic_never_matches q medio fi ff (t : str) (n : Noticia) :
  (t <> [::] -> tema n = Some [::] \/ tema n = None ->
     n \notin listar q medio fi ff (Some t)) /\
  listar None None None None (Some [::]) = db.
Proof.
split=> // /eqP tN no_topic; rewrite listar_chain !mem_filter.
have ->: active_str (Some t) (topic_cond lower) n = false.
  by rewrite /active_str /= tN /topic_cond; case: no_topic => ->.
by rewrite !andbF.
Qed.

End Combination.

(** C8 at the sample store: keyword "la" and source "el mercurio". *)
Lemma conjunctive_law_witness :
  uniq [seq id n | n <- DB_SIMULADA] /\
  listar_noticias_con_filtros str_lower DB_SIMULADA
    (Some (u "la")) (Some (u "el mercurio")) None None None =
  inter_by_id
    (listar_noticias_con_filtros str_lower DB_SIMULADA
       (Some (u "la")) None None None None)
    (listar_noticias_con_filtros str_lower DB_SIMULADA
       None (Some (u "el mercurio")) None None None).
Proof.
have uniq_id : uniq [seq id n | n <- DB_SIMULADA] by [].
split; first exact: uniq_id.
exact: (conjunctive_law str_lower (u "la") (u "el mercurio") uniq_id).
Defined.

(** C9, as the specification states it, does not hold: with the empty
    string as source the sample store is returned whole, as when the
    source is left out, whereas an exact match on the empty string selects
    no article of it. *)
Lemma empty_source_is_skipped :
  [/\ listar_noticias_con_filtros str_lower DB_SIMULADA
        None (Some [::]) None None None =
      listar_noticias_con_filtros str_lower DB_SIMULADA
        None None None None None,
      [seq n <- DB_SIMULADA | source_matches str_lower [::] n] = [::] &
      listar_noticias_con_filtros str_lower DB_SIMULADA
        None (Some [::]) None None None <>
      [seq n <- DB_SIMULADA | source_matches str_lower [::] n]].
Proof. by split; vm_compute. Qed.

(** C10, as stated, does not hold for the empty string as topic
    criterion: an article whose topic is the empty string is returned. *)
Lemma empty_topic_returned :
  tema sin_tema = Some [::] /\
  sin_tema \in listar_noticias_con_filtros str_lower [:: sin_tema]
                 None None None None (Some [::]).
Proof. by split; vm_compute. Qed.

(** C10 at the sample store extended with an article whose topic is the
    empty string: the topic "Tecnología" does not select it. *)
Lemma empty_topic_never_matches_witness :
  [/\ u "Tecnología" <> [::],
      tema sin_tema = Some [::] \/ tema sin_tema = None &
      sin_tema \notin listar_noticias_con_filtros str_lower
                        (rcons DB_SIMULADA sin_tema)
                        None None None None (Some (u "Tecnología"))].
Proof.
have nonempty : u "Tecnología" <> [::] by [].
have no_topic : tema sin_tema = Some [::] \/ tema sin_tema = None by left.
split; [exact: nonempty | exact: no_topic |].
exact: (proj1 (empty_topic_never_matches str_lower (rcons DB_SIMULADA sin_tema)
                 None None None None (u "Tecnología") sin_tema) nonempty no_topic).
Defined.

(** ** Further properties of the handlers *)

(** *** Shared lemmas *)

Lemma listar_selects lower db q medio fi ff t :
  listar_noticias_con_filtros lower db q medio fi ff t =
  [seq n <- db | selects lower q medio fi ff t n].
Proof.
rewrite listar_chain -!filter_predI; apply: eq_filter => n /=.
rewrite /selects.
move: (active_str q _ n) (active_str medio _ n) (active_str t _ n).
move: (active_date fi _ n) (active_date ff _ n).
by do 5!case.
Qed.

Lemma active_str_relax (b : bool) (o : option str) p (n : Noticia) :
  active_str (relax b o) p n = b ==> active_str o p n.
Proof. by case: b. Qed.

Lemma active_date_relax (b : bool) (o : option date) p (n : Noticia) :
  active_date (relax b o) p n = b ==> active_date o p n.
Proof. by case: b. Qed.

Lemma selects_relax lower (b1 b2 b3 b4 b5 : bool) q medio fi ff t n :
  selects lower (relax b1 q) (relax b2 medio) (relax b3 fi) (relax b4 ff)
    (relax b5 t) n =
  [&& b1 ==> active_str q (keyword_matches lower) n,
      b2 ==> active_str medio (source_matches lower) n,
      b5 ==> active_str t (topic_cond lower) n,
      b3 ==> active_date fi from_matches n &
      b4 ==> active_date ff to_matches n].
Proof. by rewrite /selects !active_str_relax !active_date_relax. Qed.

(** Searching the result of a search on part of the criteria for the rest
    of them is the search on all of them. *)
Lemma listar_split lower db (b1 b2 b3 b4 b5 : bool) q medio fi ff t :
  listar_noticias_con_filtros lower
    (listar_noticias_con_filtros lower db
       (relax b1 q) (relax b2 medio) (relax b3 fi) (relax b4 ff) (relax b5 t))
    (relax (~~ b1) q) (relax (~~ b2) medio) (relax (~~ b3) fi)
    (relax (~~ b4) ff) (relax (~~ b5) t) =
  listar_noticias_con_filtros lower db q medio fi ff t.
Proof.
rewrite !listar_selects -filter_predI; apply: eq_filter => n /=.
rewrite !selects_relax /selects.
move: (active_str q _ n) (active_str medio _ n) (active_str t _ n).
move: (active_date fi _ n) (active_date ff _ n).
by case: b1; case: b2; case: b3; case: b4; case: b5; do 5!case.
Qed.

Lemma sub_filter_subseq (a b : pred Noticia) (db : seq Noticia) :
  (forall n, a n -> b n) -> subseq [seq n <- db | a n] [seq n <- db | b n].
Proof.
move=> a_b; rewrite subseq_filter filter_subseq andbT.
by apply/allP => n; rewrite mem_filter => /andP[/a_b].
Qed.

Lemma obtener_noticia_uniq (db : seq Noticia) (n : Noticia) :
  uniq [seq id m | m <- db] -> n \in db ->
  obtener_noticia db (id n) = Return n.
Proof.
rewrite obtener_noticiaE; elim: db => [|m db IH] //= /andP[m_fresh uniq_db].
rewrite inE; case: eqP => [<- _|_ /= n_db]; first by rewrite eqxx.
case: eqP => [id_mn|_]; last exact: IH.
by rewrite id_mn map_f in m_fresh.
Qed.

Lemma lower_cp_settled (c : nat) : lower_cp (lower_cp c) = lower_cp c.
Proof.
case: (ltnP c 223) => [small|big].
  have: all (fun c => lower_cp (lower_cp c) == lower_cp c) (iota 0 223).
    by vm_compute.
  by move/allP/(_ c); rewrite mem_iota add0n small => /(_ isT) /eqP.
have fix_c : lower_cp c = c.
  rewrite /lower_cp (ltn_geF (leq_trans (isT : 90 < 223) big)).
  by rewrite (ltn_geF (leq_trans (isT : 222 < 223) big)) !andbF.
by rewrite !fix_c.
Qed.

Lemma str_lower_settled : settled str_lower.
Proof.
by move=> s; rewrite /str_lower -map_comp; apply: eq_map => c /=; exact: lower_cp_settled.
Qed.


(** *** Composition of searches *)

Section Composition.

Variable lower : str -> str.
Variable db : seq Noticia.

Notation listar := (listar_noticias_con_filtros lower).

(** X1.  A search can be done in two steps: searching the result of a
    search on some of the criteria for the remaining criteria gives the
    search on all of them, whichever criteria go first.  In particular
    text criteria then dates, and dates and topic then keyword and source,
    both give the full search. *)
Theorem search_in_two_steps (b1 b2 b3 b4 b5 : bool) q medio fi ff t :
  [/\ listar (listar db (relax b1 q) (relax b2 medio) (relax b3 fi)
                 (relax b4 ff) (relax b5 t))
        (relax (~~ b1) q) (relax (~~ b2) medio) (relax (~~ b3) fi)
        (relax (~~ b4) ff) (relax (~~ b5) t) =
      listar db q medio fi ff t,
      listar (listar db q medio None None None) None None fi ff t =
      listar db q medio fi ff t &
      listar (listar db None None fi ff t) q medio None None None =
      listar db q medio fi ff t].
Proof.
split; first exact: listar_split.
- exact: (listar_split lower db true true false false false).
- exact: (listar_split lower db false false true true true).
Qed.

(** X2.  Searching a result again with the same criteria changes
    nothing. *)
Theorem search_again_is_stable q medio fi ff t :
  listar_noticias_con_filtros lower
    (listar_noticias_con_filtros lower db q medio fi ff t) q medio fi ff t =
  listar_noticias_con_filtros lower db q medio fi ff t.
Proof. by rewrite !listar_selects filter_id. Qed.

(** X3.  Leaving criteria out of a request never loses an article: the
    result of a search is a subsequence of the result of the search with
    any of its criteria left out. *)
Theorem fewer_criteria_more_results (b1 b2 b3 b4 b5 : bool) q medio fi ff t :
  subseq (listar db q medio fi ff t)
         (listar db (relax b1 q) (relax b2 medio) (relax b3 fi)
                    (relax b4 ff) (relax b5 t)).
Proof.
rewrite -(listar_split lower db b1 b2 b3 b4 b5 q medio fi ff t).
exact: listar_subseq.
Qed.

(** X4.  The search looks at each article on its own: over two stores put
    end to end it returns the result over the first followed by the
    result over the second, and over the empty store it returns the empty
    list. *)
Theorem search_over_concatenation (db1 db2 : seq Noticia) q medio fi ff t :
  listar (db1 ++ db2) q medio fi ff t =
  listar db1 q medio fi ff t ++ listar db2 q medio fi ff t /\
  listar [::] q medio fi ff t = [::].
Proof. by rewrite !listar_selects filter_cat. Qed.

(** X5.  Over a store with unique ids every search result has unique
    ids. *)
Theorem search_keeps_ids_unique q medio fi ff t :
  uniq [seq id n | n <- db] ->
  uniq [seq id n | n <- listar_noticias_con_filtros lower db q medio fi ff t].
Proof. by apply: subseq_uniq; apply: map_subseq; exact: listar_subseq. Qed.

(** X6.  A date range whose start is after its end selects nothing,
    whatever the other criteria; it is not an error. *)
Theorem inverted_range_is_empty q medio (lo hi : date) t :
  ~~ date_le lo hi -> listar db q medio (Some lo) (Some hi) t = [::].
Proof.
move=> inverted; rewrite listar_selects; apply/eqP.
rewrite -[_ == _]negbK -has_filter; apply/hasPn => n _.
apply: contra inverted; rewrite /selects /= /from_matches /to_matches.
by case/and5P => _ _ _; exact: date_le_trans.
Qed.

(** X7.  A date range that starts and ends on the same day selects the
    articles published on that day, at whatever time of the day. *)
Theorem single_day_range (d : date) :
  listar db None None (Some d) (Some d) None =
  [seq n <- db | date_of (fecha_publicacion n) == d].
Proof.
rewrite listar_selects; apply: eq_filter => n.
rewrite /selects /= /from_matches /to_matches.
apply/andP/eqP => [[lo hi]|->]; first exact: date_le_anti.
by rewrite date_le_refl.
Qed.

(** X8.  Over a store with unique ids, every article a search returns can
    be fetched by its id, and the lookup returns that very article. *)
Theorem search_result_can_be_fetched q medio fi ff t (n : Noticia) :
  uniq [seq id m | m <- db] ->
  n \in listar db q medio fi ff t ->
  obtener_noticia db (id n) = Return n.
Proof.
move=> uniq_id n_res; apply: obtener_noticia_uniq => //.
exact: (mem_subseq (listar_subseq _ _ _ _ _ _ _) n_res).
Qed.

End Composition.

(** *** Lookup and case *)

Section More.

Variable lower : str -> str.
Variable db : seq Noticia.

Notation listar := (listar_noticias_con_filtros lower).

(** X9.  The lookup returns the first article with the given id: over two
    stores put end to end it answers from the first whenever the first
    has the id and from the second otherwise, an article at the head of
    the store is found under its id even if a later one shares it, and
    over the empty store every id is not found. *)
Theorem lookup_takes_first (db1 db2 : seq Noticia) (i : str) :
  [/\ obtener_noticia (db1 ++ db2) i =
      (if obtener_noticia db1 i is Return n then Return n
       else obtener_noticia db2 i),
      forall n, obtener_noticia (n :: db) (id n) = Return n &
      obtener_noticia [::] i = Raise not_found].
Proof.
split=> [|n|] //; rewrite !obtener_noticiaE ?filter_cat /= ?eqxx //.
by case: [seq _ <- db1 | _].
Qed.

(** X10.  The text criteria do not depend on the case of the request:
    when lowercase text is its own lowercase, putting the keyword, the
    source and the topic of a request in lowercase leaves the result
    unchanged. *)
Theorem request_case_is_irrelevant q medio fi ff t :
  settled lower -> keeps_nonempty lower -> lower [::] = [::] ->
  listar db (omap lower q) (omap lower medio) fi ff (omap lower t) =
  listar db q medio fi ff t.
Proof.
move=> idem low low0; rewrite !listar_selects; apply: eq_filter => n.
have same p : (forall s m, p (lower s) m = p s m) ->
    forall o, active_str (omap lower o) p n = active_str o p n.
  move=> p_low [[|c s]|] //=; first by rewrite /active_str /= low0.
  rewrite /active_str /= p_low; case: eqP => // eq0.
  by have := low (c :: s); rewrite eq0 low0 => /(_ erefl).
by rewrite /selects !same // => s m;
   rewrite /keyword_matches /source_matches /topic_cond idem.
Qed.

(** X11.  A keyword that contains another one, case apart, narrows the
    search: when [k2] is not empty and the lowercase of [k1] occurs in the
    lowercase of [k2], the result for [k2] is a subsequence of the result
    for [k1], the other criteria being the same. *)
Theorem containing_keyword_narrows (k1 k2 : str) medio fi ff t :
  k2 <> [::] -> str_in (lower k1) (lower k2) ->
  subseq (listar db (Some k2) medio fi ff t)
         (listar db (Some k1) medio fi ff t).
Proof.
move=> /eqP k2N occ; rewrite !listar_selects.
apply: sub_filter_subseq => n; rewrite /selects.
case/and5P => kw2 -> -> -> ->; rewrite !andbT.
case: k1 occ => [|c k1] // occ; move: kw2; rewrite /active_str /= k2N.
rewrite /keyword_matches /str_in.
by case/orP => /(infix_trans occ) ->; rewrite ?orbT.
Qed.

End More.

(** X5 at the sample store: the articles from "El Mercurio". *)
Lemma search_keeps_ids_unique_witness :
  uniq [seq id n | n <- DB_SIMULADA] /\
  uniq [seq id n | n <- listar_noticias_con_filtros str_lower DB_SIMULADA
                          None (Some (u "El Mercurio")) None None None].
Proof.
have uniq_id : uniq [seq id n | n <- DB_SIMULADA] by [].
split; first exact: uniq_id.
exact: (@search_keeps_ids_unique str_lower DB_SIMULADA
          None (Some (u "El Mercurio")) None None None uniq_id).
Defined.

(** X6 at the sample store: from 25 October to 20 October 2025. *)
Lemma inverted_range_is_empty_witness :
  ~~ date_le (Date 2025 10 25) (Date 2025 10 20) /\
  listar_noticias_con_filtros str_lower DB_SIMULADA
    None None (Some (Date 2025 10 25)) (Some (Date 2025 10 20)) None = [::].
Proof.
have inverted : ~~ date_le (Date 2025 10 25) (Date 2025 10 20) by [].
split; first exact: inverted.
exact: (@inverted_range_is_empty str_lower DB_SIMULADA None None _ _ None inverted).
Defined.

(** X8 at the sample store: N004 is returned for the topic "tecnología"
    and fetched back by its id. *)
Lemma search_result_can_be_fetched_witness :
  [/\ uniq [seq id m | m <- DB_SIMULADA],
      N004 \in listar_noticias_con_filtros str_lower DB_SIMULADA
                 None None None None (Some (u "tecnología")) &
      obtener_noticia DB_SIMULADA (id N004) = Return N004].
Proof.
have uniq_id : uniq [seq id m | m <- DB_SIMULADA] by [].
have found : N004 \in listar_noticias_con_filtros str_lower DB_SIMULADA
                        None None None None (Some (u "tecnología")) by [].
split; [exact: uniq_id | exact: found |].
exact: (@search_result_can_be_fetched str_lower DB_SIMULADA
          None None None None (Some (u "tecnología")) N004 uniq_id found).
Defined.

(** X10 at the sample store: keyword "IA", source "EL MERCURIO". *)
Lemma request_case_is_irrelevant_witness :
  [/\ settled str_lower, keeps_nonempty str_lower, str_lower [::] = [::] &
      listar_noticias_con_filtros str_lower DB_SIMULADA
        (omap str_lower (Some (u "IA"))) (omap str_lower (Some (u "EL MERCURIO")))
        None None (omap str_lower None) =
      listar_noticias_con_filtros str_lower DB_SIMULADA
        (Some (u "IA")) (Some (u "EL MERCURIO")) None None None].
Proof.
have low0 : str_lower [::] = [::] by [].
split; [exact: str_lower_settled | exact: str_lower_keeps_nonempty
       | exact: low0 |].
exact: (@request_case_is_irrelevant str_lower DB_SIMULADA
          (Some (u "IA")) (Some (u "EL MERCURIO")) None None None
          str_lower_settled str_lower_keeps_nonempty low0).
Defined.

(** X11 at the sample store: the keywords "TECNOL" and "tecnología". *)
Lemma containing_keyword_narrows_witness :
  [/\ u "tecnología" <> [::],
      str_in (str_lower (u "TECNOL")) (str_lower (u "tecnología")) &
      subseq (listar_noticias_con_filtros str_lower DB_SIMULADA
                (Some (u "tecnología")) None None None None)
             (listar_noticias_con_filtros str_lower DB_SIMULADA
                (Some (u "TECNOL")) None None None None)].
Proof.
have nonempty : u "tecnología" <> [::] by [].
have occ : str_in (str_lower (u "TECNOL")) (str_lower (u "tecnología")) by [].
split; [exact: nonempty | exact: occ |].
exact: (@containing_keyword_narrows str_lower DB_SIMULADA
          (u "TECNOL") (u "tecnología") None None None None nonempty occ).
Defined.
